(** * transport/grpc/server.go: the gRPC server wrapper

    A shallow embedding of [transport/grpc/server.go]: the option
    mutators, [NewServer], [Endpoint], [Start], [Stop] and the two unary
    interceptors, together with the parts of Go's [context] package and of
    [google.golang.org/grpc] that the file calls into.

    Conventions.
    - Instants ([time.Time]) and durations ([time.Duration], an int64
      count of nanoseconds) are integers in [Z]; [time.Now().Add(d)] is
      [now + d].
    - A Go function that touches the clock, the logger, a deadline timer
      or the transport takes a [World] and returns the new one.
    - A call either returns [(reply, err)] or panics: [Outcome].
    - A nil-able function value ([middleware.Middleware]) is an [option];
      a Go [error] is an [option goerror], [None] being [nil]. *)

From Stdlib Require Import ZArith List String Bool Lia.
Import ListNotations.
Open Scope string_scope.
Open Scope list_scope.
Open Scope Z_scope.

(** ** Values *)

(** [interface{}]: the dynamic values this development needs, tagged by
    their dynamic type. The last two are the struct values
    [transport.Transport{Kind}] and [ServerInfo{Server, FullMethod}]. *)
Inductive any : Type :=
| anyNil
| anyString (s : string)
| anyInt (z : Z)
| anyTransport (Kind : string)
| anyServerInfo (Server : any) (FullMethod : string).

Inductive goerror : Type :=
| errorString (msg : string).

Definition Time := Z.
Definition Duration := Z.

(** [time.Second], in nanoseconds. *)
Definition Second : Duration := 1000000000.
Definition Millisecond : Duration := 1000000.

(** What a Go call yields: its two results, or a panic carrying a value. *)
Inductive Outcome : Type :=
| Returned (reply : any) (err : option goerror)
| Panicked (v : any).

(** What a Go call with the single result [error] yields. *)
Inductive ErrorResult : Type :=
| ReturnsError (err : option goerror)
| Panics (v : any).

(** [net.Listener], as far as this file looks at it: [lis.Addr().String()]. *)
Record Listener : Type := { lis_Addr : string }.

(** ** The world *)

Inductive ctxErr : Type := Canceled | DeadlineExceeded.

Inductive Level : Type := LevelDebug | LevelInfo | LevelWarn | LevelError.

(** - [now]: the wall clock read by [time.Now()];
    - [next_id]: the next fresh identity of a cancellable context;
    - [timers]: the contexts whose deadline timer is armed (the deadline
      resource held until cancel is called or the timer fires);
    - [done]: the contexts whose [Done] channel is closed, with [Err()];
    - [logs]: what the logger has written, oldest first;
    - [inflight]: the number of calls the transport is currently serving. *)
Record World : Type := {
  now : Time;
  next_id : nat;
  timers : list nat;
  done : list (nat * ctxErr);
  logs : list (Level * string);
  inflight : nat
}.

Definition set_next_id (n : nat) (w : World) : World :=
  {| now := now w; next_id := n; timers := timers w; done := done w;
     logs := logs w; inflight := inflight w |}.

Definition set_timers (t : list nat) (w : World) : World :=
  {| now := now w; next_id := next_id w; timers := t; done := done w;
     logs := logs w; inflight := inflight w |}.

Definition set_done (d : list (nat * ctxErr)) (w : World) : World :=
  {| now := now w; next_id := next_id w; timers := timers w; done := d;
     logs := logs w; inflight := inflight w |}.

Definition set_logs (l : list (Level * string)) (w : World) : World :=
  {| now := now w; next_id := next_id w; timers := timers w; done := done w;
     logs := l; inflight := inflight w |}.

(** ** Package [context] of the Go standard library *)

Module context.

(** Context keys are compared with [==]; the two key types of this
    repository and any number of foreign ones. *)
Inductive Key : Type :=
| transportKey
| serverKey
| otherKey (n : nat).

Definition Key_eqb (a b : Key) : bool :=
  match a, b with
  | transportKey, transportKey => true
  | serverKey, serverKey => true
  | otherKey n, otherKey m => Nat.eqb n m
  | _, _ => false
  end.

(** A context is the chain of its derivations, as in the library:
    [emptyCtx], [valueCtx], [cancelCtx] and [timerCtx]. *)
Inductive Context : Type :=
| Background
| valueCtx (parent : Context) (key : Key) (val : any)
| cancelCtx (parent : Context) (id : nat)
| timerCtx (parent : Context) (id : nat) (deadline : Time).

(** [ctx.Deadline()]: [None] is [ok == false]. *)
Fixpoint Deadline (c : Context) : option Time :=
  match c with
  | Background => None
  | valueCtx p _ _ => Deadline p
  | cancelCtx p _ => Deadline p
  | timerCtx _ _ d => Some d
  end.

(** [ctx.Value(key)]: the nearest value stored under [key], else nil. *)
Fixpoint Value (c : Context) (k : Key) : any :=
  match c with
  | Background => anyNil
  | valueCtx p k' v => if Key_eqb k k' then v else Value p k
  | cancelCtx p _ => Value p k
  | timerCtx p _ _ => Value p k
  end.

Definition WithValue (parent : Context) (k : Key) (v : any) : Context :=
  valueCtx parent k v.

Definition CancelFunc := World -> World.

Definition is_done (id : nat) (w : World) : bool :=
  existsb (fun e => Nat.eqb (fst e) id) (done w).

(** The context's [cancel]: closes [Done] unless already closed, and
    stops the timer whether or not it had fired. *)
Definition cancel (id : nat) (err : ctxErr) (w : World) : World :=
  let w1 := if is_done id w then w else set_done ((id, err) :: done w) w in
  set_timers (filter (fun t => negb (Nat.eqb t id)) (timers w1)) w1.

Definition WithCancel (parent : Context) (w : World)
  : Context * CancelFunc * World :=
  let id := next_id w in
  (cancelCtx parent id, cancel id Canceled, set_next_id (S id) w).

(** [WithDeadline]: when the parent's deadline is already earlier than
    [d] the parent's deadline stays in force and only a cancel scope is
    added; otherwise a timer context with deadline [d], cancelled at
    once when [d] has passed and armed when it has not. *)
Definition WithDeadline (parent : Context) (d : Time) (w : World)
  : Context * CancelFunc * World :=
  let fresh :=
    let id := next_id w in
    let w1 := set_next_id (S id) w in
    let w2 := if d - now w <=? 0
              then cancel id DeadlineExceeded w1
              else set_timers (id :: timers w1) w1 in
    (timerCtx parent id d, cancel id Canceled, w2) in
  match Deadline parent with
  | Some cur => if cur <? d then WithCancel parent w else fresh
  | None => fresh
  end.

Definition WithTimeout (parent : Context) (timeout : Duration) (w : World)
  : Context * CancelFunc * World :=
  WithDeadline parent (now w + timeout) w.

End context.

(** [defer f(); return body]: the deferred call runs when the body has
    returned and also while a panic of the body unwinds; the outcome of
    the body is the outcome of the function. *)
Definition defer_ (deferred : World -> World)
                  (body : World -> Outcome * World)
  : World -> Outcome * World :=
  fun w => let (o, w') := body w in (o, deferred w').

(** ** Package [transport] of this repository *)

Module transport.

Record Transport : Type := { Kind : string }.

(** Modelled from the spec: [transport.NewContext] and
    [transport.FromContext] are not in this file. The enricher's
    contract gives them: the tag is stored in the context under the
    package's own key, and the accessor reports a distinguishable
    "not present" ([None]) when the context carries no tag. *)
Definition NewContext (ctx : context.Context) (tr : Transport)
  : context.Context :=
  context.WithValue ctx context.transportKey (anyTransport (Kind tr)).

Definition FromContext (ctx : context.Context) : option Transport :=
  match context.Value ctx context.transportKey with
  | anyTransport k => Some {| Kind := k |}
  | _ => None
  end.

End transport.

(** ** Package [middleware] of this repository *)

Module middleware.

Definition Handler : Type :=
  context.Context -> any -> World -> Outcome * World.

Definition Middleware : Type := Handler -> Handler.

(** Modelled from the spec: [middleware.Chain] is not in this file.
    The first listed middleware is the outermost: it observes the call
    first and the result last, each middleware wrapping the next. *)
Definition Chain (ms : list Middleware) : Middleware :=
  fun next => fold_right (fun m h => m h) next ms.

End middleware.

(** ** Package [google.golang.org/grpc] *)

Module grpc.

Record UnaryServerInfo : Type := {
  info_Server : any;
  info_FullMethod : string
}.

Definition UnaryHandler : Type :=
  context.Context -> any -> World -> Outcome * World.

Definition UnaryServerInterceptor : Type :=
  context.Context -> any -> UnaryServerInfo -> UnaryHandler ->
  World -> Outcome * World.

(** The server options: the chaining option, which this file uses, and
    the others, which do not take part in dispatching a unary call. *)
Inductive ServerOption : Type :=
| ChainUnaryInterceptor (interceptors : list UnaryServerInterceptor)
| otherOption (tag : nat).

Record Server : Type := { chainUnaryInts : list UnaryServerInterceptor }.

(** Each chaining option appends its interceptors to the chain. *)
Definition NewServer (opts : list ServerOption) : Server :=
  {| chainUnaryInts :=
       flat_map (fun o => match o with
                          | ChainUnaryInterceptor l => l
                          | otherOption _ => []
                          end) opts |}.

(** The handler an interceptor of the chain receives: the rest of the
    chain around the final handler. *)
Fixpoint getChainUnaryHandler (interceptors : list UnaryServerInterceptor)
    (info : UnaryServerInfo) (finalHandler : UnaryHandler) : UnaryHandler :=
  match interceptors with
  | [] => finalHandler
  | i :: rest =>
      fun ctx req => i ctx req info (getChainUnaryHandler rest info finalHandler)
  end.

(** The one interceptor the server installs: the first of the chain is
    the outermost, the last the innermost around the real call. *)
Definition chainUnaryServerInterceptors (s : Server)
  : option UnaryServerInterceptor :=
  match chainUnaryInts s with
  | [] => None
  | [i] => Some i
  | i :: rest =>
      Some (fun ctx req info handler =>
              i ctx req info (getChainUnaryHandler rest info handler))
  end.

(** One inbound unary call, as the generated method handler makes it:
    through the installed interceptor when there is one. *)
Definition handleUnary (s : Server) (ctx : context.Context) (req : any)
    (info : UnaryServerInfo) (method : UnaryHandler)
  : World -> Outcome * World :=
  match chainUnaryServerInterceptors s with
  | None => method ctx req
  | Some interceptor => interceptor ctx req info method
  end.

End grpc.

(** ** Package [log] of this repository *)

Module logger.

(** Modelled from the spec: the logging helper is not in this file; it
    accepts leveled message strings, which the world keeps in order. *)
Definition Info (msg : string) (w : World) : World :=
  set_logs (logs w ++ [(LevelInfo, msg)]) w.

(** [Infof] with the one format this file uses, a message whose only
    verb is a trailing [%s]. *)
Definition Infof (prefix arg : string) (w : World) : World :=
  Info (prefix ++ arg)%string w.

End logger.

(** ** Package [transport/grpc]: server.go *)

(** ServerInfo of this package: the per-call metadata. *)
Record ServerInfo : Type := {
  si_Server : any;
  si_FullMethod : string
}.

(** Modelled from the spec: [NewContext] and [FromContext] of this
    package live in its context.go, which is not in this file. The
    CallInfo is stored in the context under the package's own key, and
    the accessor reports "not present" ([None]) when it is absent. *)
Definition NewContext (ctx : context.Context) (info : ServerInfo)
  : context.Context :=
  context.WithValue ctx context.serverKey
    (anyServerInfo (si_Server info) (si_FullMethod info)).

Definition FromContext (ctx : context.Context) : option ServerInfo :=
  match context.Value ctx context.serverKey with
  | anyServerInfo s m => Some {| si_Server := s; si_FullMethod := m |}
  | _ => None
  end.

(** Server is a gRPC server wrapper. [grpcServer] is the embedded
    [*grpc.Server]; [lis] is nil until [Start] has bound the socket. *)
Record Server : Type := {
  grpcServer : option grpc.Server;
  lis : option Listener;
  network : string;
  address : string;
  timeout : Duration;
  middleware : option middleware.Middleware;
  grpcOpts : list grpc.ServerOption
}.

(** ServerOption is gRPC server option: a mutator of the server under
    construction. *)
Definition ServerOption : Type := Server -> Server.

(** Network with server network. *)
Definition Network (network' : string) : ServerOption :=
  fun s =>
    {| grpcServer := grpcServer s; lis := lis s; network := network';
       address := address s; timeout := timeout s;
       middleware := middleware s; grpcOpts := grpcOpts s |}.

(** Address with server address. *)
Definition Address (addr : string) : ServerOption :=
  fun s =>
    {| grpcServer := grpcServer s; lis := lis s; network := network s;
       address := addr; timeout := timeout s;
       middleware := middleware s; grpcOpts := grpcOpts s |}.

(** Timeout with server timeout. *)
Definition Timeout (timeout' : Duration) : ServerOption :=
  fun s =>
    {| grpcServer := grpcServer s; lis := lis s; network := network s;
       address := address s; timeout := timeout';
       middleware := middleware s; grpcOpts := grpcOpts s |}.

(** Middleware with server middleware. *)
Definition Middleware (m : option middleware.Middleware) : ServerOption :=
  fun s =>
    {| grpcServer := grpcServer s; lis := lis s; network := network s;
       address := address s; timeout := timeout s;
       middleware := m; grpcOpts := grpcOpts s |}.

(** Options with grpc options. *)
Definition Options (opts : list grpc.ServerOption) : ServerOption :=
  fun s =>
    {| grpcServer := grpcServer s; lis := lis s; network := network s;
       address := address s; timeout := timeout s;
       middleware := middleware s; grpcOpts := opts |}.

(** [srv.Server = g]. *)
Definition set_grpcServer (g : grpc.Server) (s : Server) : Server :=
  {| grpcServer := Some g; lis := lis s; network := network s;
     address := address s; timeout := timeout s;
     middleware := middleware s; grpcOpts := grpcOpts s |}.

(** [s.lis = l]. *)
Definition set_lis (l : Listener) (s : Server) : Server :=
  {| grpcServer := grpcServer s; lis := Some l; network := network s;
     address := address s; timeout := timeout s;
     middleware := middleware s; grpcOpts := grpcOpts s |}.

(** UnaryTimeoutInterceptor returns a unary timeout interceptor. *)
Definition UnaryTimeoutInterceptor (timeout' : Duration)
  : grpc.UnaryServerInterceptor :=
  fun ctx req info handler w =>
    let '(ctx', cancel, w1) := context.WithTimeout ctx timeout' w in
    defer_ cancel (handler ctx' req) w1.

(** UnaryServerInterceptor returns a unary server interceptor. Applying
    the middleware to the handler only builds a closure. *)
Definition UnaryServerInterceptor (m : option middleware.Middleware)
  : grpc.UnaryServerInterceptor :=
  fun ctx req info handler =>
    let ctx1 := transport.NewContext ctx {| transport.Kind := "GRPC" |} in
    let ctx2 := NewContext ctx1 {| si_Server := grpc.info_Server info;
                                   si_FullMethod := grpc.info_FullMethod info |} in
    let h : middleware.Handler := fun ctx req => handler ctx req in
    let h := match m with
             | Some m' => m' h
             | None => h
             end in
    h ctx2 req.

(** [for _, o := range opts { o(srv) }]. *)
Definition applyOptions (opts : list ServerOption) (srv : Server) : Server :=
  fold_left (fun s o => o s) opts srv.

Section Construction.

(** [status.Server()] and [recovery.Recovery()], the two middleware of
    the default chain, come from packages that are not in this file. *)
Variable status : middleware.Middleware.
Variable recovery : middleware.Middleware.

(** The server literal [NewServer] starts from. *)
Definition defaultServer : Server :=
  {| grpcServer := None;
     lis := None;
     network := "tcp";
     address := ":0";
     timeout := Second;
     middleware := Some (middleware.Chain [status; recovery]);
     grpcOpts := [] |}.

(** NewServer creates a gRPC server by options. *)
Definition NewServer (opts : list ServerOption) : Server :=
  let srv := applyOptions opts defaultServer in
  let grpcOpts0 :=
    [grpc.ChainUnaryInterceptor
       [UnaryServerInterceptor (middleware srv);
        UnaryTimeoutInterceptor (timeout srv)]] in
  let grpcOpts1 :=
    if (0 <? List.length (grpcOpts srv))%nat
    then grpcOpts0 ++ grpcOpts srv
    else grpcOpts0 in
  set_grpcServer (grpc.NewServer grpcOpts1) srv.

End Construction.

Section Lifecycle.

(** The collaborators: [net.Listen], which binds the socket or fails;
    [Serve] of the embedded transport server, the blocking
    accept/dispatch loop; and its [GracefulStop]. [Serve] and
    [GracefulStop] are methods of the embedded pointer. *)
Variable net_Listen : string -> string -> World -> Listener + goerror.
Variable grpc_Serve :
  grpc.Server -> Listener -> World -> ErrorResult * World.
Variable grpc_GracefulStop : grpc.Server -> World -> World.

(** Calling a method through the embedded pointer dereferences it. *)
Definition nilDereference : any :=
  anyString "runtime error: invalid memory address or nil pointer dereference".

(** Start start the gRPC server. The server is passed by pointer: the
    result carries the server as the call leaves it. *)
Definition Start (s : Server) (w : World) : ErrorResult * Server * World :=
  match net_Listen (network s) (address s) w with
  | inr err => (ReturnsError (Some err), s, w)
  | inl l =>
      let s1 := set_lis l s in
      let w1 := logger.Infof "[gRPC] server listening on: " (lis_Addr l) w in
      match grpcServer s1 with
      | None => (Panics nilDereference, s1, w1)
      | Some g => let (o, w2) := grpc_Serve g l w1 in (o, s1, w2)
      end
  end.

(** Stop stop the gRPC server. *)
Definition Stop (s : Server) (w : World) : ErrorResult * World :=
  match grpcServer s with
  | None => (Panics nilDereference, w)
  | Some g =>
      let w1 := grpc_GracefulStop g w in
      let w2 := logger.Info "[gRPC] server stopping" w1 in
      (ReturnsError None, w2)
  end.

End Lifecycle.

Section EndpointResolver.

(** [host.Extract(hostport, lis)] is the address-discovery helper of
    package internal/host, which is not in this file. *)
Variable host_Extract : string -> option Listener -> string * option goerror.

(** Endpoint return a real address to registry endpoint. *)
Definition Endpoint (s : Server) : string * option goerror :=
  let (addr, err) := host_Extract (address s) (lis s) in
  match err with
  | Some e => ("", Some e)
  | None => (("grpc://" ++ addr)%string, err)
  end.

End EndpointResolver.

(** ** Dispatching one inbound call *)

(** The context [UnaryServerInterceptor] hands on: the base context with
    the transport-kind tag and then the CallInfo stored in it. *)
Definition enrichedCtx (ctx : context.Context) (info : grpc.UnaryServerInfo)
  : context.Context :=
  NewContext
    (transport.NewContext ctx {| transport.Kind := "GRPC" |})
    {| si_Server := grpc.info_Server info;
       si_FullMethod := grpc.info_FullMethod info |}.

(** The three results of [context.WithTimeout(ctx, timeout)]. *)
Definition boundCtx (ctx : context.Context) (D : Duration) (w : World)
  : context.Context := fst (fst (context.WithTimeout ctx D w)).

Definition boundCancel (ctx : context.Context) (D : Duration) (w : World)
  : context.CancelFunc := snd (fst (context.WithTimeout ctx D w)).

Definition boundWorld (ctx : context.Context) (D : Duration) (w : World)
  : World := snd (context.WithTimeout ctx D w).

(** The handler the middleware is wrapped around, nil meaning none. *)
Definition wrap (m : option middleware.Middleware) (h : middleware.Handler)
  : middleware.Handler :=
  match m with
  | Some m' => m' h
  | None => h
  end.

(** An inbound unary call on a constructed server: the embedded
    transport server runs its installed interceptor around the method. *)
Definition dispatch (s : Server) (ctx : context.Context) (req : any)
    (info : grpc.UnaryServerInfo) (method : grpc.UnaryHandler)
  : World -> Outcome * World :=
  match grpcServer s with
  | Some g => grpc.handleUnary g ctx req info method
  | None => fun w => (Panicked nilDereference, w)
  end.

(** The interceptors that caller-supplied transport options add to the
    chain, after the two of [NewServer]. *)
Definition extraInterceptors (s : Server) : list grpc.UnaryServerInterceptor :=
  grpc.chainUnaryInts (grpc.NewServer (grpcOpts s)).


(** ** Option sequences *)

(** The calls of the construction surface, as data. *)
Inductive OptionCall : Type :=
| CallNetwork (network' : string)
| CallAddress (addr : string)
| CallTimeout (timeout' : Duration)
| CallMiddleware (m : option middleware.Middleware)
| CallOptions (opts : list grpc.ServerOption).

Definition optionOf (c : OptionCall) : ServerOption :=
  match c with
  | CallNetwork n => Network n
  | CallAddress a => Address a
  | CallTimeout d => Timeout d
  | CallMiddleware m => Middleware m
  | CallOptions o => Options o
  end.

Definition networkOf (c : OptionCall) : option string :=
  match c with CallNetwork n => Some n | _ => None end.

Definition addressOf (c : OptionCall) : option string :=
  match c with CallAddress a => Some a | _ => None end.

Definition timeoutOf (c : OptionCall) : option Duration :=
  match c with CallTimeout d => Some d | _ => None end.

Definition middlewareOf (c : OptionCall) : option (option middleware.Middleware) :=
  match c with CallMiddleware m => Some m | _ => None end.

Definition optionsOf (c : OptionCall) : option (list grpc.ServerOption) :=
  match c with CallOptions o => Some o | _ => None end.

(** The value set by the last call of the sequence that touches a field
    ([touches c] is the value [c] sets, if it sets the field). *)
Fixpoint lastSet {A : Type} (touches : OptionCall -> option A)
    (cs : list OptionCall) : option A :=
  match cs with
  | [] => None
  | c :: rest =>
      match lastSet touches rest with
      | Some a => Some a
      | None => touches c
      end
  end.

(** The value of the last call that touches the field, or the default. *)
Definition lastOr {A : Type} (touches : OptionCall -> option A)
    (cs : list OptionCall) (default : A) : A :=
  match lastSet touches cs with
  | Some a => a
  | None => default
  end.

(** The invariant the data model states for a server configuration. *)
Definition ServerConfig_invariant (s : Server) : Prop :=
  0 < timeout s /\ network s <> "" /\ address s <> "".

(** The values in force at the end of an option sequence are well
    formed: a positive timeout, a non-empty network and address. *)
Definition lastValid (cs : list OptionCall) : bool :=
  match lastSet timeoutOf cs with Some d => 0 <? d | None => true end
  && match lastSet networkOf cs with
     | Some n => negb (String.eqb n "")
     | None => true
     end
  && match lastSet addressOf cs with
     | Some a => negb (String.eqb a "")
     | None => true
     end.

(** ** Instrumented collaborators, for running the definitions *)

Definition passthrough : middleware.Middleware := fun next => next.

Definition deadlineOf (ctx : context.Context) : any :=
  match context.Deadline ctx with
  | Some d => anyInt d
  | None => anyNil
  end.


(** Methods: one answers with the deadline it observes, one fails, one
    faults. *)
Definition deadlineMethod : grpc.UnaryHandler :=
  fun ctx _ w => (Returned (deadlineOf ctx) None, w).

Definition failingMethod : grpc.UnaryHandler :=
  fun _ _ w => (Returned anyNil (Some (errorString "not found")), w).

Definition panickingMethod : grpc.UnaryHandler :=
  fun _ _ w => (Panicked (anyString "boom"), w).

Definition world0 : World :=
  {| now := 0; next_id := 0%nat; timers := []; done := [];
     logs := []; inflight := 0%nat |}.

Definition busyWorld : World :=
  {| now := 5; next_id := 2%nat; timers := [1%nat]; done := [];
     logs := []; inflight := 3%nat |}.

Definition greeterInfo : grpc.UnaryServerInfo :=
  {| grpc.info_Server := anyString "greeter";
     grpc.info_FullMethod := "/helloworld.Greeter/SayHello" |}.

Definition addressInUse : goerror :=
  errorString "listen tcp :9000: bind: address already in use".

Definition listenFails : string -> string -> World -> Listener + goerror :=
  fun _ _ _ => inr addressInUse.

Definition listenBinds : string -> string -> World -> Listener + goerror :=
  fun _ addr _ => inl {| lis_Addr := ("[::]" ++ addr)%string |}.

(** A serve loop that takes one call in and leaves a trace in the log. *)
Definition serveOnce : grpc.Server -> Listener -> World -> ErrorResult * World :=
  fun _ _ w =>
    (ReturnsError None,
     {| now := now w; next_id := next_id w; timers := timers w;
        done := done w; logs := logs w ++ [(LevelDebug, "serving")];
        inflight := S (inflight w) |}).

(** A graceful stop that lets time pass until no call is in flight. *)
Definition drainAll : grpc.Server -> World -> World :=
  fun _ w =>
    {| now := now w + Z.of_nat (inflight w); next_id := next_id w;
       timers := timers w; done := done w; logs := logs w;
       inflight := 0%nat |}.

Definition noRoute : goerror := errorString "host: no route to a concrete address".

(** An address resolver that knows the address only once it is bound. *)
Definition extractBound : string -> option Listener -> string * option goerror :=
  fun _ l =>
    match l with
    | Some l' => (lis_Addr l', None)
    | None => ("", Some noRoute)
    end.

(** * Properties *)

(** ** Contexts and deadlines *)

Lemma Key_eqb_refl (k : context.Key) : context.Key_eqb k k = true.
Proof. destruct k; simpl; auto using Nat.eqb_refl. Qed.

Lemma WithTimeout_cases (ctx : context.Context) (D : Duration) (w : World) :
  (exists w1, context.WithTimeout ctx D w
              = (context.cancelCtx ctx (next_id w),
                 context.cancel (next_id w) Canceled, w1)
              /\ exists cur, context.Deadline ctx = Some cur /\ cur < now w + D)
  \/ (exists w1, context.WithTimeout ctx D w
                 = (context.timerCtx ctx (next_id w) (now w + D),
                    context.cancel (next_id w) Canceled, w1)
                 /\ forall cur, context.Deadline ctx = Some cur -> now w + D <= cur).
Proof.
  unfold context.WithTimeout, context.WithDeadline, context.WithCancel.
  destruct (context.Deadline ctx) as [cur|] eqn:Hd.
  - destruct (cur <? now w + D) eqn:Hlt.
    + left. eexists. split; [reflexivity|].
      exists cur. split; [reflexivity|]. now apply Z.ltb_lt.
    + right. eexists. split; [reflexivity|].
      intros c Hc. injection Hc as <-. now apply Z.ltb_ge.
  - right. eexists. split; [reflexivity|]. discriminate.
Qed.

(** The deadline intersection law of [context.WithTimeout]. *)
Lemma boundCtx_Deadline (ctx : context.Context) (D : Duration) (w : World) :
  context.Deadline (boundCtx ctx D w)
  = Some (match context.Deadline ctx with
          | Some cur => Z.min cur (now w + D)
          | None => now w + D
          end).
Proof.
  unfold boundCtx.
  destruct (WithTimeout_cases ctx D w) as [(w1 & -> & cur & Hd & Hlt)
                                          |(w1 & -> & Hge)]; simpl.
  - rewrite Hd. f_equal. lia.
  - destruct (context.Deadline ctx) as [cur|]; [|reflexivity].
    specialize (Hge cur eq_refl). f_equal. lia.
Qed.

Lemma boundCtx_Value (ctx : context.Context) (D : Duration) (w : World)
    (k : context.Key) :
  context.Value (boundCtx ctx D w) k = context.Value ctx k.
Proof.
  unfold boundCtx.
  destruct (WithTimeout_cases ctx D w) as [(w1 & -> & _)|(w1 & -> & _)];
    reflexivity.
Qed.

Lemma boundCancel_eq (ctx : context.Context) (D : Duration) (w : World) :
  boundCancel ctx D w = context.cancel (next_id w) Canceled.
Proof.
  unfold boundCancel.
  destruct (WithTimeout_cases ctx D w) as [(w1 & -> & _)|(w1 & -> & _)];
    reflexivity.
Qed.

Lemma WithTimeout_eta (ctx : context.Context) (D : Duration) (w : World) :
  context.WithTimeout ctx D w
  = (boundCtx ctx D w, boundCancel ctx D w, boundWorld ctx D w).
Proof.
  unfold boundCtx, boundCancel, boundWorld.
  destruct (context.WithTimeout ctx D w) as [[c f] w1]. reflexivity.
Qed.

(** Calling cancel stops the timer and closes the context, whatever the
    world it is called in. *)
Lemma cancel_stops_timer (id : nat) (e : ctxErr) (w : World) :
  ~ In id (timers (context.cancel id e w)).
Proof.
  unfold context.cancel. simpl. intros H.
  apply filter_In in H. destruct H as [_ H].
  rewrite Nat.eqb_refl in H. discriminate.
Qed.

Lemma cancel_closes (id : nat) (e : ctxErr) (w : World) :
  context.is_done id (context.cancel id e w) = true.
Proof.
  unfold context.cancel.
  destruct (context.is_done id w) eqn:Hd.
  - unfold context.is_done in *. simpl. exact Hd.
  - unfold context.is_done. simpl. now rewrite Nat.eqb_refl.
Qed.

(** The timeout interceptor, with the results of [WithTimeout] named. *)
Lemma UnaryTimeoutInterceptor_unfold (D : Duration) (ctx : context.Context)
    (req : any) (info : grpc.UnaryServerInfo) (handler : grpc.UnaryHandler)
    (w : World) :
  UnaryTimeoutInterceptor D ctx req info handler w
  = (fst (handler (boundCtx ctx D w) req (boundWorld ctx D w)),
     context.cancel (next_id w) Canceled
       (snd (handler (boundCtx ctx D w) req (boundWorld ctx D w)))).
Proof.
  unfold UnaryTimeoutInterceptor.
  rewrite WithTimeout_eta, boundCancel_eq. unfold defer_.
  destruct (handler _ req _) as [o w2]. reflexivity.
Qed.

(** ** Option sequences *)

Lemma applyOptions_app (pre post : list ServerOption) (s : Server) :
  applyOptions (pre ++ post) s = applyOptions post (applyOptions pre s).
Proof. unfold applyOptions. apply fold_left_app. Qed.

Section LastWins.

Variable A : Type.
Variable field : Server -> A.
Variable touches : OptionCall -> option A.

Hypothesis field_optionOf :
  forall c s, field (optionOf c s)
              = match touches c with Some a => a | None => field s end.

Lemma field_applyOptions (cs : list OptionCall) (s : Server) :
  field (applyOptions (map optionOf cs) s) = lastOr touches cs (field s).
Proof.
  unfold lastOr. revert s.
  induction cs as [|c rest IH]; intros s; simpl.
  - reflexivity.
  - change (field (applyOptions (map optionOf rest) (optionOf c s))
            = match match lastSet touches rest with
                    | Some a => Some a
                    | None => touches c
                    end with
              | Some a => a
              | None => field s
              end).
    rewrite IH, field_optionOf.
    destruct (lastSet touches rest); reflexivity.
Qed.

End LastWins.

Section ConstructionFacts.

Variable status : middleware.Middleware.
Variable recovery : middleware.Middleware.

(** [NewServer] changes no configuration field after the options have
    run; it only installs the transport server. *)
Lemma NewServer_fields (opts : list ServerOption) :
  let srv := NewServer status recovery opts in
  let cfg := applyOptions opts (defaultServer status recovery) in
  network srv = network cfg
  /\ address srv = address cfg
  /\ timeout srv = timeout cfg
  /\ middleware srv = middleware cfg
  /\ grpcOpts srv = grpcOpts cfg
  /\ lis srv = lis cfg.
Proof. repeat split. Qed.

Lemma NewServer_grpcServer (opts : list ServerOption) :
  exists g, grpcServer (NewServer status recovery opts) = Some g.
Proof. eexists. reflexivity. Qed.

(** The chain [NewServer] installs: the enricher-and-middleware
    interceptor outermost, the timeout interceptor inside it, then
    whatever the caller's transport options chain on. *)
Lemma dispatch_NewServer (opts : list ServerOption) (ctx : context.Context)
    (req : any) (info : grpc.UnaryServerInfo) (method : grpc.UnaryHandler) :
  let srv := NewServer status recovery opts in
  dispatch srv ctx req info method
  = UnaryServerInterceptor (middleware srv) ctx req info
      (fun ctx' req' =>
         UnaryTimeoutInterceptor (timeout srv) ctx' req' info
           (grpc.getChainUnaryHandler (extraInterceptors srv) info method)).
Proof.
  unfold dispatch, extraInterceptors, NewServer. simpl.
  set (srv := applyOptions opts _).
  unfold grpc.handleUnary, grpc.chainUnaryServerInterceptors.
  destruct (grpcOpts srv) as [|o os]; reflexivity.
Qed.

(** The fields of a server built from a sequence of option calls. *)
Lemma NewServer_lastOr (cs : list OptionCall) :
  let srv := NewServer status recovery (map optionOf cs) in
  network srv = lastOr networkOf cs "tcp"
  /\ address srv = lastOr addressOf cs ":0"
  /\ timeout srv = lastOr timeoutOf cs Second
  /\ middleware srv
     = lastOr middlewareOf cs (Some (middleware.Chain [status; recovery]))
  /\ grpcOpts srv = lastOr optionsOf cs [].
Proof.
  cbv zeta. unfold NewServer. cbv zeta.
  repeat split.
  - apply (field_applyOptions _ network networkOf). now intros [].
  - apply (field_applyOptions _ address addressOf). now intros [].
  - apply (field_applyOptions _ timeout timeoutOf). now intros [].
  - apply (field_applyOptions _ middleware middlewareOf). now intros [].
  - apply (field_applyOptions _ grpcOpts optionsOf). now intros [].
Qed.

End ConstructionFacts.

(** ** Construction *)

(** C2. [NewServer] with an empty option list yields the documented
    defaults: network "tcp", address ":0" (any interface, any port),
    timeout one second (10^9 ns), no transport options, and as middleware
    the default chain, status translation first (outermost) and panic
    recovery inside it. *)
Theorem NewServer_defaults (status recovery : middleware.Middleware) :
  let srv := NewServer status recovery [] in
  network srv = "tcp"
  /\ address srv = ":0"
  /\ timeout srv = Second
  /\ timeout srv = 1000000000
  /\ middleware srv = Some (middleware.Chain [status; recovery])
  /\ (forall next : middleware.Handler,
        wrap (middleware srv) next = status (recovery next))
  /\ grpcOpts srv = []
  /\ lis srv = None.
Proof. cbv zeta. repeat split. Qed.

(** C5. Options are applied in the given order and the last one that
    touches a field wins: [Address(":0")] then [Address(":9000")] leaves
    the address ":9000", whatever options came before and whichever
    options that set other fields come after; and for every sequence of
    option calls each configuration field holds the value of the last
    call that sets it, or its default when no call does. *)
Theorem options_last_wins (status recovery : middleware.Middleware) :
  address (NewServer status recovery [Address ":0"; Address ":9000"]) = ":9000"
  /\ (forall (pre : list ServerOption) (a b : string),
        address (NewServer status recovery (pre ++ [Address a; Address b])) = b)
  /\ (forall (pre post : list OptionCall) (a b : string),
        lastSet addressOf post = None ->
        address (NewServer status recovery
                   (map optionOf (pre ++ [CallAddress a; CallAddress b] ++ post)))
        = b)
  /\ (forall cs : list OptionCall,
        let srv := NewServer status recovery (map optionOf cs) in
        network srv = lastOr networkOf cs "tcp"
        /\ address srv = lastOr addressOf cs ":0"
        /\ timeout srv = lastOr timeoutOf cs Second
        /\ middleware srv
           = lastOr middlewareOf cs (Some (middleware.Chain [status; recovery]))
        /\ grpcOpts srv = lastOr optionsOf cs []).
Proof.
  split; [reflexivity|]. split; [|split].
  - intros pre a b.
    destruct (NewServer_fields status recovery (pre ++ [Address a; Address b]))
      as (_ & -> & _).
    rewrite applyOptions_app. reflexivity.
  - intros pre post a b Hpost.
    destruct (NewServer_lastOr status recovery
                (pre ++ [CallAddress a; CallAddress b] ++ post))
      as (_ & -> & _).
    unfold lastOr.
    assert (H : lastSet addressOf (pre ++ [CallAddress a; CallAddress b] ++ post)
                = Some b).
    { induction pre as [|c pre IH]; simpl.
      - now rewrite Hpost.
      - simpl in IH. now rewrite IH. }
    now rewrite H.
  - intros cs. apply NewServer_lastOr.
Qed.

(** The theorem at a sequence where two addresses are followed by options
    for other fields. *)
Lemma options_last_wins_witness :
  lastSet addressOf [CallTimeout Millisecond; CallNetwork "tcp4"] = None
  /\ address (NewServer passthrough passthrough
                (map optionOf ([CallNetwork "unix"]
                               ++ [CallAddress ":0"; CallAddress ":9000"]
                               ++ [CallTimeout Millisecond; CallNetwork "tcp4"])))
     = ":9000".
Proof.
  split; [reflexivity|].
  apply (proj1 (proj2 (proj2 (options_last_wins passthrough passthrough)))
           [CallNetwork "unix"] [CallTimeout Millisecond; CallNetwork "tcp4"]
           ":0" ":9000").
  reflexivity.
Defined.

(** C7, as the specification states it, fails: the option mutators store
    what they are given and [NewServer] validates nothing, so a zero
    timeout, an empty network or an empty address reaches the
    configuration. *)
Lemma NewServer_invariant_counterexample :
  ~ ServerConfig_invariant (NewServer passthrough passthrough [Timeout 0])
  /\ ~ ServerConfig_invariant (NewServer passthrough passthrough [Address ""])
  /\ ~ ServerConfig_invariant (NewServer passthrough passthrough [Network ""]).
Proof.
  unfold ServerConfig_invariant. simpl.
  repeat split; intros (Ht & Hn & Ha).
  - lia.
  - now apply Ha.
  - now apply Hn.
Qed.

Lemma lastValid_spec (cs : list OptionCall) :
  lastValid cs = true <->
  0 < lastOr timeoutOf cs Second
  /\ lastOr networkOf cs "tcp" <> ""
  /\ lastOr addressOf cs ":0" <> "".
Proof.
  unfold lastValid, lastOr.
  rewrite !andb_true_iff.
  destruct (lastSet timeoutOf cs) as [d|];
    destruct (lastSet networkOf cs) as [n|];
    destruct (lastSet addressOf cs) as [a|];
    rewrite ?negb_true_iff, ?String.eqb_neq, ?Z.ltb_lt;
    unfold Second; intuition (try lia; try discriminate).
Qed.

(** C7, amended. After construction from a sequence of option calls the
    configuration satisfies the invariant (timeout > 0, network and
    address non-empty) whenever the values in force at the end of the
    sequence are well formed: the last timeout given, if any, is
    positive, and the last network and the last address given, if any,
    are non-empty. In particular it holds for the defaults alone. *)
Theorem NewServer_invariant (status recovery : middleware.Middleware)
    (cs : list OptionCall) :
  lastValid cs = true ->
  ServerConfig_invariant (NewServer status recovery (map optionOf cs)).
Proof.
  intros H. apply lastValid_spec in H.
  destruct (NewServer_lastOr status recovery cs) as (Hn & Ha & Ht & _).
  unfold ServerConfig_invariant. rewrite Hn, Ha, Ht. exact H.
Qed.

(** The amended invariant at a sequence whose early values are malformed
    and are overridden. *)
Lemma NewServer_invariant_witness :
  lastValid [CallTimeout 0; CallAddress ""; CallTimeout (50 * Millisecond);
             CallAddress ":9000"] = true
  /\ ServerConfig_invariant
       (NewServer passthrough passthrough
          (map optionOf [CallTimeout 0; CallAddress "";
                         CallTimeout (50 * Millisecond); CallAddress ":9000"])).
Proof.
  split; [reflexivity|].
  apply (NewServer_invariant passthrough passthrough); reflexivity.
Defined.

(** The condition of the amended invariant is also necessary. *)
Lemma NewServer_invariant_only_if (status recovery : middleware.Middleware)
    (cs : list OptionCall) :
  ServerConfig_invariant (NewServer status recovery (map optionOf cs)) ->
  lastValid cs = true.
Proof.
  intros H. apply lastValid_spec.
  destruct (NewServer_lastOr status recovery cs) as (Hn & Ha & Ht & _).
  unfold ServerConfig_invariant in H. now rewrite Hn, Ha, Ht in H.
Qed.

(** ** The timeout enforcer *)

(** C3. For every incoming context and every duration [D], the handler
    made by [UnaryTimeoutInterceptor] calls the next handler with a
    derived context that keeps the values of the incoming one and whose
    deadline is [now + D], or the incoming deadline when that is sooner;
    the outcome of the next handler (a reply, an error or a fault) is the
    outcome of the interceptor, and on each of these exit paths cancel
    has been called when the interceptor is left: the timer of the
    derived context is stopped and the context is closed. *)
Theorem UnaryTimeoutInterceptor_bounds_and_releases
    (D : Duration) (ctx : context.Context) (req : any)
    (info : grpc.UnaryServerInfo) (handler : grpc.UnaryHandler)
    (w : World) (o : Outcome) (w2 : World) :
  handler (boundCtx ctx D w) req (boundWorld ctx D w) = (o, w2) ->
  context.Deadline (boundCtx ctx D w)
  = Some (match context.Deadline ctx with
          | Some cur => Z.min cur (now w + D)
          | None => now w + D
          end)
  /\ (forall k, context.Value (boundCtx ctx D w) k = context.Value ctx k)
  /\ UnaryTimeoutInterceptor D ctx req info handler w
     = (o, context.cancel (next_id w) Canceled w2)
  /\ ~ In (next_id w)
         (timers (snd (UnaryTimeoutInterceptor D ctx req info handler w)))
  /\ context.is_done (next_id w)
       (snd (UnaryTimeoutInterceptor D ctx req info handler w)) = true.
Proof.
  intros Hh.
  rewrite UnaryTimeoutInterceptor_unfold, Hh. simpl.
  repeat split.
  - apply boundCtx_Deadline.
  - intros k. apply boundCtx_Value.
  - apply cancel_stops_timer.
  - apply cancel_closes.
Qed.

(** The fault path, under an incoming deadline nearer than the timeout:
    the nearer deadline stays, the panic passes through, and the context
    derived for the call, number 2, is closed. *)
Lemma UnaryTimeoutInterceptor_witness :
  let ctx := context.timerCtx context.Background 1 300 in
  panickingMethod (boundCtx ctx Second busyWorld) anyNil
                  (boundWorld ctx Second busyWorld)
  = (Panicked (anyString "boom"), set_next_id 3 busyWorld)
  /\ context.Deadline (boundCtx ctx Second busyWorld) = Some 300
  /\ UnaryTimeoutInterceptor Second ctx anyNil greeterInfo panickingMethod
       busyWorld
     = (Panicked (anyString "boom"),
        context.cancel 2 Canceled (set_next_id 3 busyWorld)).
Proof.
  cbv zeta. split; [reflexivity|].
  destruct (UnaryTimeoutInterceptor_bounds_and_releases
              Second (context.timerCtx context.Background 1 300) anyNil
              greeterInfo panickingMethod busyWorld
              (Panicked (anyString "boom")) (set_next_id 3 busyWorld)
              eq_refl) as (Hd & _ & Hrun & _).
  split; [exact Hd | exact Hrun].
Defined.

(** The three exit paths on a context without a deadline, at time 5 with
    a timeout of one second: the method sees the deadline 1000000005. *)
Example UnaryTimeoutInterceptor_normal_return :
  UnaryTimeoutInterceptor Second context.Background anyNil greeterInfo
    deadlineMethod busyWorld
  = (Returned (anyInt 1000000005) None,
     {| now := 5; next_id := 3; timers := [1%nat];
        done := [(2%nat, Canceled)]; logs := []; inflight := 3 |}).
Proof. reflexivity. Qed.

Example UnaryTimeoutInterceptor_error_return :
  UnaryTimeoutInterceptor Second context.Background anyNil greeterInfo
    failingMethod busyWorld
  = (Returned anyNil (Some (errorString "not found")),
     {| now := 5; next_id := 3; timers := [1%nat];
        done := [(2%nat, Canceled)]; logs := []; inflight := 3 |}).
Proof. reflexivity. Qed.

Example UnaryTimeoutInterceptor_fault :
  UnaryTimeoutInterceptor Second context.Background anyNil greeterInfo
    panickingMethod busyWorld
  = (Panicked (anyString "boom"),
     {| now := 5; next_id := 3; timers := [1%nat];
        done := [(2%nat, Canceled)]; logs := []; inflight := 3 |}).
Proof. reflexivity. Qed.

(** A duration that is not positive: the deadline has passed when the
    context is made, which is closed at once with [DeadlineExceeded]. *)
Example UnaryTimeoutInterceptor_expired :
  UnaryTimeoutInterceptor 0 context.Background anyNil greeterInfo
    deadlineMethod busyWorld
  = (Returned (anyInt 5) None,
     {| now := 5; next_id := 3; timers := [1%nat];
        done := [(2%nat, DeadlineExceeded)]; logs := []; inflight := 3 |}).
Proof. reflexivity. Qed.

(** ** The call context enricher *)

Lemma enrichedCtx_transport (ctx : context.Context) (info : grpc.UnaryServerInfo) :
  transport.FromContext (enrichedCtx ctx info)
  = Some {| transport.Kind := "GRPC" |}.
Proof. reflexivity. Qed.

Lemma enrichedCtx_info (ctx : context.Context) (info : grpc.UnaryServerInfo) :
  FromContext (enrichedCtx ctx info)
  = Some {| si_Server := grpc.info_Server info;
            si_FullMethod := grpc.info_FullMethod info |}.
Proof. reflexivity. Qed.

Lemma UnaryServerInterceptor_unfold (m : option middleware.Middleware)
    (ctx : context.Context) (req : any) (info : grpc.UnaryServerInfo)
    (handler : grpc.UnaryHandler) :
  UnaryServerInterceptor m ctx req info handler
  = wrap m handler (enrichedCtx ctx info) req.
Proof. destruct m; reflexivity. Qed.


(** A call on the default server with pass-through middleware reaches the
    method with both the tag and the CallInfo in its context. *)
Example enriched_method_context :
  dispatch (NewServer passthrough passthrough []) context.Background anyNil
    greeterInfo
    (fun ctx _ w =>
       (Returned
          (match transport.FromContext ctx, FromContext ctx with
           | Some tr, Some i =>
               anyString (transport.Kind tr ++ " " ++ si_FullMethod i)
           | _, _ => anyNil
           end) None, w))
    world0
  = (Returned (anyString "GRPC /helloworld.Greeter/SayHello") None,
     {| now := 0; next_id := 1; timers := [];
        done := [(0%nat, Canceled)]; logs := []; inflight := 0 |}).
Proof. reflexivity. Qed.



(** ** The order of the handlers *)



(** The default order at work: with a pass-through chain the method of a
    call without a deadline sees the deadline of one second. *)
Example dispatch_default_deadline :
  dispatch (NewServer passthrough passthrough []) context.Background anyNil
    greeterInfo deadlineMethod world0
  = (Returned (anyInt 1000000000) None,
     {| now := 0; next_id := 1; timers := [];
        done := [(0%nat, Canceled)]; logs := []; inflight := 0 |}).
Proof. reflexivity. Qed.

(** ** Lifecycle *)

Section LifecycleFacts.

Variable net_Listen : string -> string -> World -> Listener + goerror.
Variable grpc_Serve : grpc.Server -> Listener -> World -> ErrorResult * World.
Variable grpc_GracefulStop : grpc.Server -> World -> World.

(** C6. When binding the listening socket fails, [Start] returns that
    error at once and leaves everything as it was: no listener is
    stored, nothing is logged, and the serve loop is not entered,
    whatever that loop would have done. *)
Theorem Start_bind_failure (s : Server) (w : World) (err : goerror) :
  net_Listen (network s) (address s) w = inr err ->
  Start net_Listen grpc_Serve s w = (ReturnsError (Some err), s, w)
  /\ lis (snd (fst (Start net_Listen grpc_Serve s w))) = lis s
  /\ logs (snd (Start net_Listen grpc_Serve s w)) = logs w
  /\ inflight (snd (Start net_Listen grpc_Serve s w)) = inflight w.
Proof.
  intros H. unfold Start. rewrite H. repeat split.
Qed.

(** C9. [Stop] on a constructed server shuts down gracefully: it
    returns only after [GracefulStop] of the transport server has
    returned, hence, as [GracefulStop] returns when no call is in
    flight, with no call in flight; it then logs that the server is
    stopping, and its result is nil in every case. *)
Theorem Stop_graceful (s : Server) (g : grpc.Server) (w : World) :
  (forall g' w', inflight (grpc_GracefulStop g' w') = 0%nat) ->
  grpcServer s = Some g ->
  Stop grpc_GracefulStop s w
  = (ReturnsError None,
     logger.Info "[gRPC] server stopping" (grpc_GracefulStop g w))
  /\ inflight (snd (Stop grpc_GracefulStop s w)) = 0%nat
  /\ logs (snd (Stop grpc_GracefulStop s w))
     = logs (grpc_GracefulStop g w) ++ [(LevelInfo, "[gRPC] server stopping")].
Proof.
  intros Hdrain Hg. unfold Stop. rewrite Hg. simpl.
  repeat split. apply Hdrain.
Qed.

End LifecycleFacts.

(** A server on a taken address: [Start] hands the bind error back, and
    the serve loop, which would have logged and taken a call in, has left
    no trace. *)
Lemma Start_bind_failure_witness :
  listenFails "tcp" ":9000" busyWorld = inr addressInUse
  /\ Start listenFails serveOnce
       (NewServer passthrough passthrough [Address ":9000"]) busyWorld
     = (ReturnsError (Some addressInUse),
        NewServer passthrough passthrough [Address ":9000"], busyWorld).
Proof.
  split; [reflexivity|].
  apply (Start_bind_failure listenFails serveOnce
           (NewServer passthrough passthrough [Address ":9000"]) busyWorld
           addressInUse).
  reflexivity.
Defined.

(** The same server where the address is free: the listener is stored,
    the bound address is logged, and the serve loop runs. *)
Example Start_bind_success :
  Start listenBinds serveOnce
    (NewServer passthrough passthrough [Address ":9000"]) world0
  = (ReturnsError None,
     set_lis {| lis_Addr := "[::]:9000" |}
       (NewServer passthrough passthrough [Address ":9000"]),
     {| now := 0; next_id := 0; timers := []; done := [];
        logs := [(LevelInfo, "[gRPC] server listening on: [::]:9000");
                 (LevelDebug, "serving")];
        inflight := 1 |}).
Proof. reflexivity. Qed.

(** [Stop] on the default server with three calls in flight. *)
Lemma Stop_graceful_witness :
  (forall g' w', inflight (drainAll g' w') = 0%nat)
  /\ grpcServer (NewServer passthrough passthrough [])
     = Some (grpc.NewServer
               [grpc.ChainUnaryInterceptor
                  [UnaryServerInterceptor
                     (Some (middleware.Chain [passthrough; passthrough]));
                   UnaryTimeoutInterceptor Second]])
  /\ fst (Stop drainAll (NewServer passthrough passthrough []) busyWorld)
     = ReturnsError None
  /\ inflight (snd (Stop drainAll (NewServer passthrough passthrough [])
                      busyWorld)) = 0%nat.
Proof.
  split; [reflexivity|]. split; [reflexivity|].
  destruct (Stop_graceful drainAll (NewServer passthrough passthrough []) _
              busyWorld (fun _ _ => eq_refl) eq_refl) as (Hs & Hi & _).
  split; [now rewrite Hs | exact Hi].
Defined.

(** ** The endpoint *)

Section EndpointFacts.

Variable host_Extract : string -> option Listener -> string * option goerror.

(** C8. When the address resolves, to [addr] (a host:port), [Endpoint]
    returns the URI grpc://[addr] and no error; when it does not,
    [Endpoint] returns the empty string, which is no grpc:// URI,
    together with the resolver's error. *)
Theorem Endpoint_result (s : Server) :
  (forall addr, host_Extract (address s) (lis s) = (addr, None) ->
     Endpoint host_Extract s = (("grpc://" ++ addr)%string, None))
  /\ (forall addr e, host_Extract (address s) (lis s) = (addr, Some e) ->
        Endpoint host_Extract s = ("", Some e)
        /\ String.prefix "grpc://" (fst (Endpoint host_Extract s)) = false
        /\ snd (Endpoint host_Extract s) <> None).
Proof.
  unfold Endpoint. split.
  - intros addr H. now rewrite H.
  - intros addr e H. rewrite H. repeat split. discriminate.
Qed.

End EndpointFacts.

(** An unbound server whose address cannot be resolved, and the same
    server once it is bound. *)
Lemma Endpoint_result_witness :
  (extractBound ":0" None = ("", Some noRoute)
   /\ Endpoint extractBound (NewServer passthrough passthrough [])
      = ("", Some noRoute))
  /\ (extractBound ":0" (Some {| lis_Addr := "10.0.0.7:41321" |})
      = ("10.0.0.7:41321", None)
      /\ Endpoint extractBound
           (set_lis {| lis_Addr := "10.0.0.7:41321" |}
              (NewServer passthrough passthrough []))
         = ("grpc://10.0.0.7:41321", None)).
Proof.
  split.
  - split; [reflexivity|].
    apply (proj2 (Endpoint_result extractBound
                    (NewServer passthrough passthrough [])) "" noRoute).
    reflexivity.
  - split; [reflexivity|].
    apply (proj1 (Endpoint_result extractBound
                    (set_lis {| lis_Addr := "10.0.0.7:41321" |}
                       (NewServer passthrough passthrough [])))
             "10.0.0.7:41321").
    reflexivity.
Defined.


(** * Further properties of server.go *)

(** ** Servers built from option calls *)

Lemma Server_ext (s1 s2 : Server) :
  grpcServer s1 = grpcServer s2 -> lis s1 = lis s2 ->
  network s1 = network s2 -> address s1 = address s2 ->
  timeout s1 = timeout s2 -> middleware s1 = middleware s2 ->
  grpcOpts s1 = grpcOpts s2 -> s1 = s2.
Proof. destruct s1, s2; simpl; intros; subst; reflexivity. Qed.

Lemma network_applyOptions (cs : list OptionCall) (s : Server) :
  network (applyOptions (map optionOf cs) s) = lastOr networkOf cs (network s).
Proof. apply (field_applyOptions _ network networkOf). now intros []. Qed.

Lemma address_applyOptions (cs : list OptionCall) (s : Server) :
  address (applyOptions (map optionOf cs) s) = lastOr addressOf cs (address s).
Proof. apply (field_applyOptions _ address addressOf). now intros []. Qed.

Lemma timeout_applyOptions (cs : list OptionCall) (s : Server) :
  timeout (applyOptions (map optionOf cs) s) = lastOr timeoutOf cs (timeout s).
Proof. apply (field_applyOptions _ timeout timeoutOf). now intros []. Qed.

Lemma middleware_applyOptions (cs : list OptionCall) (s : Server) :
  middleware (applyOptions (map optionOf cs) s)
  = lastOr middlewareOf cs (middleware s).
Proof. apply (field_applyOptions _ middleware middlewareOf). now intros []. Qed.

Lemma grpcOpts_applyOptions (cs : list OptionCall) (s : Server) :
  grpcOpts (applyOptions (map optionOf cs) s) = lastOr optionsOf cs (grpcOpts s).
Proof. apply (field_applyOptions _ grpcOpts optionsOf). now intros []. Qed.

(** No option of the construction surface touches the listener or the
    embedded transport server. *)
Lemma applyOptions_keeps (cs : list OptionCall) (s : Server) :
  grpcServer (applyOptions (map optionOf cs) s) = grpcServer s
  /\ lis (applyOptions (map optionOf cs) s) = lis s.
Proof.
  revert s. induction cs as [|c rest IH]; intros s.
  - split; reflexivity.
  - change (applyOptions (map optionOf (c :: rest)) s)
      with (applyOptions (map optionOf rest) (optionOf c s)).
    destruct (IH (optionOf c s)) as [-> ->]. destruct c; split; reflexivity.
Qed.

(** X1. The server [NewServer] builds depends on the sequence of option
    calls only through the last call for each field: two sequences whose
    last network, address, timeout, middleware and transport-option calls
    agree build the same server, interceptors included. So calls for
    different fields commute, and a call that a later call for the same
    field overrides can be dropped. *)
Theorem NewServer_last_calls (status recovery : middleware.Middleware)
    (cs1 cs2 : list OptionCall) :
  lastSet networkOf cs1 = lastSet networkOf cs2 ->
  lastSet addressOf cs1 = lastSet addressOf cs2 ->
  lastSet timeoutOf cs1 = lastSet timeoutOf cs2 ->
  lastSet middlewareOf cs1 = lastSet middlewareOf cs2 ->
  lastSet optionsOf cs1 = lastSet optionsOf cs2 ->
  NewServer status recovery (map optionOf cs1)
  = NewServer status recovery (map optionOf cs2).
Proof.
  intros Hn Ha Ht Hm Ho.
  assert (H : applyOptions (map optionOf cs1) (defaultServer status recovery)
              = applyOptions (map optionOf cs2) (defaultServer status recovery)).
  { apply Server_ext.
    - now rewrite !(proj1 (applyOptions_keeps _ _)).
    - now rewrite !(proj2 (applyOptions_keeps _ _)).
    - rewrite !network_applyOptions. unfold lastOr. now rewrite Hn.
    - rewrite !address_applyOptions. unfold lastOr. now rewrite Ha.
    - rewrite !timeout_applyOptions. unfold lastOr. now rewrite Ht.
    - rewrite !middleware_applyOptions. unfold lastOr. now rewrite Hm.
    - rewrite !grpcOpts_applyOptions. unfold lastOr. now rewrite Ho. }
  unfold NewServer. cbv zeta. now rewrite H.
Qed.

(** Two calls for different fields swapped, and an overridden address
    dropped. *)
Lemma NewServer_last_calls_witness :
  NewServer passthrough passthrough
    (map optionOf [CallAddress ":0"; CallTimeout Millisecond;
                   CallNetwork "tcp4"; CallAddress ":9000"])
  = NewServer passthrough passthrough
      (map optionOf [CallNetwork "tcp4"; CallAddress ":9000";
                     CallTimeout Millisecond]).
Proof.
  apply (NewServer_last_calls passthrough passthrough
           [CallAddress ":0"; CallTimeout Millisecond;
            CallNetwork "tcp4"; CallAddress ":9000"]
           [CallNetwork "tcp4"; CallAddress ":9000"; CallTimeout Millisecond]);
    reflexivity.
Defined.

(** X2. The transport server is always built from the server's own
    chaining option first, holding the enricher-and-middleware
    interceptor and then the timeout interceptor, followed by the
    caller's transport options, whether or not there are any. Of several
    [Options] calls only the last one's list is passed on: the lists are
    not accumulated. *)
Theorem NewServer_transport_options (status recovery : middleware.Middleware) :
  (forall opts : list ServerOption,
     let srv := NewServer status recovery opts in
     grpcServer srv
     = Some (grpc.NewServer
               (grpc.ChainUnaryInterceptor
                  [UnaryServerInterceptor (middleware srv);
                   UnaryTimeoutInterceptor (timeout srv)]
                :: grpcOpts srv)))
  /\ (forall cs : list OptionCall,
        grpcServer (NewServer status recovery (map optionOf cs))
        = Some (grpc.NewServer
                  (grpc.ChainUnaryInterceptor
                     [UnaryServerInterceptor
                        (lastOr middlewareOf cs
                           (Some (middleware.Chain [status; recovery])));
                      UnaryTimeoutInterceptor (lastOr timeoutOf cs Second)]
                   :: lastOr optionsOf cs []))).
Proof.
  assert (H : forall opts : list ServerOption,
            let srv := NewServer status recovery opts in
            grpcServer srv
            = Some (grpc.NewServer
                      (grpc.ChainUnaryInterceptor
                         [UnaryServerInterceptor (middleware srv);
                          UnaryTimeoutInterceptor (timeout srv)]
                       :: grpcOpts srv))).
  { intros opts. cbv zeta. unfold NewServer. cbv zeta. simpl.
    destruct (grpcOpts (applyOptions opts (defaultServer status recovery)));
      reflexivity. }
  split; [exact H|].
  intros cs. rewrite H.
  destruct (NewServer_lastOr status recovery cs) as (_ & _ & Ht & Hm & Ho).
  cbv zeta in Ht, Hm, Ho. now rewrite Ht, Hm, Ho.
Qed.

(** X3. Unless a [Middleware] or an [Options] call is given, every call
    runs through status translation, then panic recovery, then the
    timeout enforcer with the last timeout given (one second by default),
    then the method, under the enriched context. *)
Theorem dispatch_default_chain (status recovery : middleware.Middleware)
    (cs : list OptionCall) (ctx : context.Context) (req : any)
    (info : grpc.UnaryServerInfo) (method : grpc.UnaryHandler) :
  lastSet middlewareOf cs = None ->
  lastSet optionsOf cs = None ->
  dispatch (NewServer status recovery (map optionOf cs)) ctx req info method
  = status
      (recovery
         (fun ctx' req' =>
            UnaryTimeoutInterceptor (lastOr timeoutOf cs Second)
              ctx' req' info method))
      (enrichedCtx ctx info) req.
Proof.
  intros Hm Ho.
  rewrite dispatch_NewServer. cbv zeta. unfold extraInterceptors.
  destruct (NewServer_lastOr status recovery cs) as (_ & _ & Ht & Hm' & Ho').
  cbv zeta in Ht, Hm', Ho'. rewrite Ht, Hm', Ho'.
  unfold lastOr at 1 3. rewrite Hm, Ho. reflexivity.
Qed.

(** The default chain under a timeout of fifty milliseconds. *)
Lemma dispatch_default_chain_witness :
  dispatch
    (NewServer passthrough passthrough
       (map optionOf [CallTimeout (50 * Millisecond); CallAddress ":9000"]))
    context.Background anyNil greeterInfo deadlineMethod
  = passthrough
      (passthrough
         (fun ctx' req' =>
            UnaryTimeoutInterceptor
              (lastOr timeoutOf
                 [CallTimeout (50 * Millisecond); CallAddress ":9000"] Second)
              ctx' req' greeterInfo deadlineMethod))
      (enrichedCtx context.Background greeterInfo) anyNil.
Proof.
  apply (dispatch_default_chain passthrough passthrough
           [CallTimeout (50 * Millisecond); CallAddress ":9000"]);
    reflexivity.
Defined.

Example dispatch_fifty_milliseconds :
  dispatch
    (NewServer passthrough passthrough
       (map optionOf [CallTimeout (50 * Millisecond); CallAddress ":9000"]))
    context.Background anyNil greeterInfo deadlineMethod busyWorld
  = (Returned (anyInt 50000005) None,
     {| now := 5; next_id := 3; timers := [1%nat];
        done := [(2%nat, Canceled)]; logs := []; inflight := 3 |}).
Proof. reflexivity. Qed.

(** X4. The interceptors are fixed when the server is built. Option
    calls applied to a built server do change its fields (the timeout,
    the middleware, the address that [Endpoint] and [Start] read), but
    the calls it serves run exactly as before: with the middleware and
    the timeout it was built with. *)
Theorem options_after_construction (status recovery : middleware.Middleware)
    (opts : list ServerOption) (cs : list OptionCall) :
  let srv := NewServer status recovery opts in
  let srv' := applyOptions (map optionOf cs) srv in
  (forall ctx req info method,
     dispatch srv' ctx req info method = dispatch srv ctx req info method)
  /\ timeout srv' = lastOr timeoutOf cs (timeout srv)
  /\ middleware srv' = lastOr middlewareOf cs (middleware srv)
  /\ (forall host_Extract,
        Endpoint host_Extract srv'
        = Endpoint host_Extract (Address (lastOr addressOf cs (address srv)) srv)).
Proof.
  cbv zeta. split; [|split; [|split]].
  - intros ctx req info method. unfold dispatch.
    now rewrite (proj1 (applyOptions_keeps cs _)).
  - apply timeout_applyOptions.
  - apply middleware_applyOptions.
  - intros host_Extract. unfold Endpoint.
    rewrite address_applyOptions, (proj2 (applyOptions_keeps cs _)).
    reflexivity.
Qed.

(** A timeout of zero given after construction is stored and is without
    effect: the method still sees the deadline of one second. *)
Example late_timeout_ignored :
  timeout (Timeout 0 (NewServer passthrough passthrough [])) = 0
  /\ dispatch (Timeout 0 (NewServer passthrough passthrough []))
       context.Background anyNil greeterInfo deadlineMethod world0
     = (Returned (anyInt 1000000000) None,
        {| now := 0; next_id := 1; timers := [];
           done := [(0%nat, Canceled)]; logs := []; inflight := 0 |}).
Proof. split; reflexivity. Qed.

(** ** Start and Endpoint on built servers *)

(** X5. [Start] on a server built from option calls binds on the last
    network and the last address given, "tcp" and ":0" by default. When
    the bind fails the error comes back and nothing has changed; when it
    succeeds the listener is stored, the bound address is logged, and
    only then the serve loop is entered, whose result and world are
    those of [Start]. *)
Theorem Start_constructed
    (net_Listen : string -> string -> World -> Listener + goerror)
    (grpc_Serve : grpc.Server -> Listener -> World -> ErrorResult * World)
    (status recovery : middleware.Middleware) (cs : list OptionCall)
    (w : World) :
  let srv := NewServer status recovery (map optionOf cs) in
  exists g, grpcServer srv = Some g
  /\ Start net_Listen grpc_Serve srv w
     = match net_Listen (lastOr networkOf cs "tcp")
                        (lastOr addressOf cs ":0") w with
       | inr err => (ReturnsError (Some err), srv, w)
       | inl l =>
           let w1 := set_logs
                       (logs w ++ [(LevelInfo,
                                    ("[gRPC] server listening on: "
                                     ++ lis_Addr l)%string)]) w in
           (fst (grpc_Serve g l w1), set_lis l srv, snd (grpc_Serve g l w1))
       end.
Proof.
  cbv zeta.
  destruct (NewServer_grpcServer status recovery (map optionOf cs)) as [g Hg].
  exists g. split; [exact Hg|].
  destruct (NewServer_lastOr status recovery cs) as (Hn & Ha & _).
  cbv zeta in Hn, Ha. unfold Start. rewrite Hn, Ha.
  destruct (net_Listen _ _ w) as [l|err]; [|reflexivity].
  change (grpcServer (set_lis l (NewServer status recovery (map optionOf cs))))
    with (grpcServer (NewServer status recovery (map optionOf cs))).
  rewrite Hg. unfold logger.Infof, logger.Info.
  destruct (grpc_Serve g l _) as [o w2]. reflexivity.
Qed.

(** X6. A server built from option calls holds no listener, so before
    [Start] the endpoint is resolved from the last address given (":0"
    by default) and a nil listener. *)
Theorem Endpoint_before_Start
    (host_Extract : string -> option Listener -> string * option goerror)
    (status recovery : middleware.Middleware) (cs : list OptionCall) :
  let srv := NewServer status recovery (map optionOf cs) in
  lis srv = None
  /\ Endpoint host_Extract srv
     = (let (addr, err) := host_Extract (lastOr addressOf cs ":0") None in
        match err with
        | Some e => ("", Some e)
        | None => (("grpc://" ++ addr)%string, None)
        end).
Proof.
  cbv zeta.
  assert (Hl : lis (NewServer status recovery (map optionOf cs)) = None).
  { destruct (NewServer_fields status recovery (map optionOf cs))
      as (_ & _ & _ & _ & _ & Hl). cbv zeta in Hl. rewrite Hl.
    now rewrite (proj2 (applyOptions_keeps cs _)). }
  split; [exact Hl|].
  destruct (NewServer_lastOr status recovery cs) as (_ & Ha & _).
  cbv zeta in Ha. unfold Endpoint. rewrite Ha, Hl.
  destruct (host_Extract _ None) as [addr [e|]]; reflexivity.
Qed.

(** X7. After a [Start] whose bind succeeded, the server holds the bound
    listener, whatever it held before, its address is unchanged, and
    [Endpoint] resolves from that address and the bound listener. *)
Theorem Endpoint_after_Start
    (net_Listen : string -> string -> World -> Listener + goerror)
    (grpc_Serve : grpc.Server -> Listener -> World -> ErrorResult * World)
    (host_Extract : string -> option Listener -> string * option goerror)
    (s : Server) (l : Listener) (w : World) :
  net_Listen (network s) (address s) w = inl l ->
  let s' := snd (fst (Start net_Listen grpc_Serve s w)) in
  lis s' = Some l
  /\ address s' = address s
  /\ Endpoint host_Extract s'
     = (let (addr, err) := host_Extract (address s) (Some l) in
        match err with
        | Some e => ("", Some e)
        | None => (("grpc://" ++ addr)%string, None)
        end).
Proof.
  intros H. cbv zeta.
  assert (Hs : snd (fst (Start net_Listen grpc_Serve s w)) = set_lis l s).
  { unfold Start. rewrite H. simpl.
    destruct (grpcServer s) as [g|]; [|reflexivity].
    destruct (grpc_Serve g l _); reflexivity. }
  rewrite Hs. split; [reflexivity|]. split; [reflexivity|].
  unfold Endpoint. simpl.
  destruct (host_Extract (address s) (Some l)) as [addr [e|]]; reflexivity.
Qed.

(** A server bound on ":9000": the endpoint is the bound address. *)
Lemma Endpoint_after_Start_witness :
  listenBinds "tcp" ":9000" world0 = inl {| lis_Addr := "[::]:9000" |}
  /\ Endpoint extractBound
       (snd (fst (Start listenBinds serveOnce
                    (NewServer passthrough passthrough [Address ":9000"])
                    world0)))
     = ("grpc://[::]:9000", None).
Proof.
  split; [reflexivity|].
  destruct (Endpoint_after_Start listenBinds serveOnce extractBound
              (NewServer passthrough passthrough [Address ":9000"])
              {| lis_Addr := "[::]:9000" |} world0 eq_refl) as (_ & _ & H).
  exact H.
Defined.

(** ** The timeout enforcer and the world *)

Lemma boundWorld_eq (ctx : context.Context) (D : Duration) (w : World) :
  let id := next_id w in
  let fresh :=
    if D <=? 0
    then context.cancel id DeadlineExceeded (set_next_id (S id) w)
    else set_timers (id :: timers w) (set_next_id (S id) w) in
  boundWorld ctx D w
  = match context.Deadline ctx with
    | Some cur => if cur <? now w + D then set_next_id (S id) w else fresh
    | None => fresh
    end.
Proof.
  cbv zeta.
  unfold boundWorld, context.WithTimeout, context.WithDeadline,
    context.WithCancel.
  replace (now w + D - now w) with D by lia.
  destruct (context.Deadline ctx) as [cur|];
    [destruct (cur <? now w + D)|]; reflexivity.
Qed.




(** X9. A timeout that is not positive stops no call: the handler still
    runs, under a context whose deadline has already passed; and unless
    the incoming context had a still earlier deadline, that context is
    closed before the handler starts and no timer is ever armed. *)
Theorem UnaryTimeoutInterceptor_nonpositive
    (D : Duration) (ctx : context.Context) (req : any)
    (info : grpc.UnaryServerInfo) (handler : grpc.UnaryHandler) (w : World) :
  D <= 0 ->
  (exists d, context.Deadline (boundCtx ctx D w) = Some d /\ d <= now w)
  /\ UnaryTimeoutInterceptor D ctx req info handler w
     = (fst (handler (boundCtx ctx D w) req (boundWorld ctx D w)),
        context.cancel (next_id w) Canceled
          (snd (handler (boundCtx ctx D w) req (boundWorld ctx D w))))
  /\ ((forall cur, context.Deadline ctx = Some cur -> now w + D <= cur) ->
      context.is_done (next_id w) (boundWorld ctx D w) = true
      /\ ~ In (next_id w) (timers (boundWorld ctx D w))).
Proof.
  intros HD. split; [|split].
  - rewrite boundCtx_Deadline. eexists. split; [reflexivity|].
    destruct (context.Deadline ctx); lia.
  - apply UnaryTimeoutInterceptor_unfold.
  - intros Hge. rewrite boundWorld_eq. cbv zeta.
    apply Z.leb_le in HD. rewrite HD.
    destruct (context.Deadline ctx) as [cur|].
    + specialize (Hge cur eq_refl). apply Z.ltb_ge in Hge. rewrite Hge.
      split; [apply cancel_closes | apply cancel_stops_timer].
    + split; [apply cancel_closes | apply cancel_stops_timer].
Qed.

(** A timeout of zero on a call without a deadline, at time 5. *)
Lemma UnaryTimeoutInterceptor_nonpositive_witness :
  0 <= 0
  /\ (forall cur, context.Deadline context.Background = Some cur ->
        now busyWorld + 0 <= cur)
  /\ context.is_done (next_id busyWorld)
       (boundWorld context.Background 0 busyWorld) = true
  /\ UnaryTimeoutInterceptor 0 context.Background anyNil greeterInfo
       deadlineMethod busyWorld
     = (fst (deadlineMethod (boundCtx context.Background 0 busyWorld) anyNil
               (boundWorld context.Background 0 busyWorld)),
        context.cancel (next_id busyWorld) Canceled
          (snd (deadlineMethod (boundCtx context.Background 0 busyWorld) anyNil
                  (boundWorld context.Background 0 busyWorld)))).
Proof.
  assert (Hno : forall cur, context.Deadline context.Background = Some cur ->
                  now busyWorld + 0 <= cur) by (simpl; discriminate).
  split; [lia|]. split; [exact Hno|].
  destruct (UnaryTimeoutInterceptor_nonpositive 0 context.Background anyNil
              greeterInfo deadlineMethod busyWorld (Z.le_refl 0))
    as (_ & Hrun & Hclosed).
  split; [exact (proj1 (Hclosed Hno)) | exact Hrun].
Defined.



(** ** The two interceptors together *)

(** X11. Deriving the deadline context loses nothing of what the
    enricher stored: whatever context reaches the timeout interceptor,
    the handler behind it reads the same transport tag and the same
    CallInfo from its own context. So with a nil middleware the method
    runs under a context that carries the tag "GRPC", the CallInfo of the
    call, and the intersected deadline, and its outcome is the call's. *)
Theorem enriched_values_reach_handler
    (D : Duration) (ctx : context.Context) (req : any)
    (info : grpc.UnaryServerInfo) (handler : grpc.UnaryHandler) (w : World) :
  (forall ctx' w',
     transport.FromContext (boundCtx ctx' D w') = transport.FromContext ctx'
     /\ FromContext (boundCtx ctx' D w') = FromContext ctx')
  /\ (let ctx3 := boundCtx (enrichedCtx ctx info) D w in
      let bw := boundWorld (enrichedCtx ctx info) D w in
      UnaryServerInterceptor None ctx req info
        (fun ctx' req' => UnaryTimeoutInterceptor D ctx' req' info handler) w
      = (fst (handler ctx3 req bw),
         context.cancel (next_id w) Canceled (snd (handler ctx3 req bw)))
      /\ transport.FromContext ctx3 = Some {| transport.Kind := "GRPC" |}
      /\ FromContext ctx3
         = Some {| si_Server := grpc.info_Server info;
                   si_FullMethod := grpc.info_FullMethod info |}
      /\ context.Deadline ctx3
         = Some (match context.Deadline ctx with
                 | Some cur => Z.min cur (now w + D)
                 | None => now w + D
                 end)).
Proof.
  assert (Hkeep : forall ctx' w',
            transport.FromContext (boundCtx ctx' D w')
            = transport.FromContext ctx'
            /\ FromContext (boundCtx ctx' D w') = FromContext ctx').
  { intros ctx' w'. unfold transport.FromContext, FromContext.
    now rewrite !boundCtx_Value. }
  split; [exact Hkeep|]. cbv zeta.
  split; [|split; [|split]].
  - rewrite UnaryServerInterceptor_unfold. simpl.
    apply UnaryTimeoutInterceptor_unfold.
  - rewrite (proj1 (Hkeep _ _)). reflexivity.
  - rewrite (proj2 (Hkeep _ _)). reflexivity.
  - rewrite boundCtx_Deadline. reflexivity.
Qed.
